(** * The MODM command-line entry point ([cli/__main__.py])

    The module is glue over the [click] framework: it declares a command
    group [cli], attaches the [build] command imported from the sibling
    package [commands], and runs the group when executed as [__main__].

    The development has three layers.
    - [Python]: values, exceptions and the state-and-exception monad in
      which module-level statements and framework calls run.
    - [click]: the part of the framework the module calls, following
      click 8.1 ([core.py] and [parser.py]): [group], [add_command],
      [get_command], [list_commands], option parsing, [resolve_command],
      [invoke] and [main] in standalone mode, with the check
      [_main_shell_completion] makes before anything is parsed.  Chained
      groups, result callbacks and token normalisation are not part of
      the embedding; options use the prefixes [-] and [--]; what
      [shell_complete] prints is left to the environment the program is
      run in.
    - [Cli]: the module itself, statement by statement.

    A string is a Python [str] over the characters with code points below
    256: an [ascii] holds one code point. *)

From Stdlib Require Import ZArith Ascii.
From stdpp Require Import gmap strings list sorting.

#[local] Open Scope string_scope.
#[local] Open Scope list_scope.

(** ** Python values, exceptions and effects *)

Module Python.

Inductive pyval :=
| PyNone
| PyInt (z : Z)
| PyStr (s : string).

(** The reasons for which click raises [UsageError] while it parses the
    command line of a group. *)
Inductive usage_error :=
| NoSuchCommand (name : string)
| NoSuchOption (name : string)
| OptionTakesNoValue (name : string)
| OptionRequiresArgument (name : string)
| MissingCommand
| OtherUsage (message : string).

(** Exceptions, by the classes [main] tells apart. *)
Inductive exn :=
| UsageError (u : usage_error)
| ClickException (exit_code : Z) (message : string)
| Exit (code : Z)
| Abort
| KeyboardInterrupt
| EOFError
| OSError (errno : Z)
| SystemExit (code : Z)
| Exception (class_name : string).

Inductive result (A : Type) :=
| Ret (a : A)
| Raise (e : exn).
Arguments Ret {A} a.
Arguments Raise {A} e.

(** What [get_help] renders: the docstring, the option names and the
    names of the listed subcommands. *)
Record help_page := HelpPage {
  hp_text : string;
  hp_options : list string;
  hp_commands : list string
}.

(** What the framework writes to the terminal. *)
Inductive emitted :=
| EchoHelp (page : help_page)
| ShowUsageError (u : usage_error)
| ShowError (message : string)
| EchoAborted
| EchoNewline
| EchoText (text : string).

(** Steps of the module and of the framework, in program order. *)
Inductive event :=
| EvImport (module_name : string)
| EvGroupDefined (name : string)
| EvCommandAdded (name : string)
| EvMain (args : list string)
| EvCallback (name : string)
| EvInvoke (name : string) (args : list string).

(** The subcommands a trace enters, with their arguments, and the
    number of times it runs a group. *)
Definition invocations (t : list event) : list (string * list string) :=
  omap (fun ev => match ev with EvInvoke n a => Some (n, a) | _ => None end) t.

Definition main_calls (t : list event) : nat :=
  length (List.filter (fun ev => match ev with EvMain _ => true | _ => false end) t).

Section Monad.
Context {W : Type}.

(** [world] is the state subcommands act on; [out] and [trace] belong to
    the framework and the module. *)
Record state := State {
  world : W;
  out : list emitted;
  trace : list event
}.

Definition M (A : Type) : Type := state -> result A * state.

Definition ret {A} (a : A) : M A := fun s => (Ret a, s).

Definition raise {A} (e : exn) : M A := fun s => (Raise e, s).

Definition bind {A B} (m : M A) (k : A -> M B) : M B :=
  fun s =>
    match m s with
    | (Ret a, s') => k a s'
    | (Raise e, s') => (Raise e, s')
    end.

(** [try: m except e: h e]; a handler re-raises what it does not match. *)
Definition try_except {A} (m : M A) (h : exn -> M A) : M A :=
  fun s =>
    match m s with
    | (Ret a, s') => (Ret a, s')
    | (Raise e, s') => h e s'
    end.

Definition echo (x : emitted) : M unit :=
  fun s => (Ret tt, State (world s) (out s ++ [x]) (trace s)).

Definition log (ev : event) : M unit :=
  fun s => (Ret tt, State (world s) (out s) (trace s ++ [ev])).

(** Code that only sees the world: a Python callable of the program. *)
Definition lift {A} (f : W -> result A * W) : M A :=
  fun s =>
    let '(r, w) := f (world s) in (r, State w (out s) (trace s)).

Definition init (w : W) : state := State w [] [].

Definition raised {A} (r : result A) : option exn :=
  match r with
  | Ret _ => None
  | Raise e => Some e
  end.

End Monad.

Arguments state W : clear implicits.
Arguments M W A : clear implicits.

#[global] Instance M_ret {W} : MRet (M W) := fun A => ret.
#[global] Instance M_bind {W} : MBind (M W) := fun A B k m => bind m k.

(** The status the interpreter hands to the operating system when the
    main module ends with [r]: [sys.exit(n)] gives [n], any other
    uncaught exception prints a traceback and gives 1. *)
Definition exit_status {A} (r : result A) : Z :=
  match r with
  | Ret _ => 0
  | Raise (SystemExit n) => n
  | Raise _ => 1
  end.

End Python.

(** ** The click framework, as far as the module uses it *)

Module click.
Import Python.

(** *** Strings *)

(** [str.isalnum] on one character: the ASCII digits and letters, and
    in the upper half of the range the letters (feminine and masculine
    ordinal, micro sign, U+00C0 to U+00FF without the multiplication and
    division signs), the superscript digits and the vulgar fractions. *)
Definition isalnum (c : ascii) : bool :=
  let n := Ascii.N_of_ascii c in
  ((48 <=? n) && (n <=? 57) || (65 <=? n) && (n <=? 90)
   || (97 <=? n) && (n <=? 122)
   || (n =? 170) || (n =? 178) || (n =? 179) || (n =? 181)
   || (n =? 185) || (n =? 186) || (188 <=? n) && (n <=? 190)
   || (192 <=? n) && (n <=? 214) || (216 <=? n) && (n <=? 246)
   || (248 <=? n))%N.

(** [f.__name__.lower().replace("_", "-")]: the capital letters of the
    range are A to Z and U+00C0 to U+00DE without the multiplication
    sign. *)
Definition command_name_char (c : ascii) : ascii :=
  let n := Ascii.N_of_ascii c in
  if ((65 <=? n) && (n <=? 90) || (192 <=? n) && (n <=? 214)
      || (216 <=? n) && (n <=? 222))%N
  then Ascii.ascii_of_N (n + 32)
  else if Ascii.eqb c "_"%char then "-"%char
  else c.

Fixpoint command_name (s : string) : string :=
  match s with
  | EmptyString => EmptyString
  | String c rest => String (command_name_char c) (command_name rest)
  end.

(** [parser.split_opt]: the option prefix of a token and what follows
    it; a token that starts with an alphanumeric character has none. *)
Definition split_opt (opt : string) : string * string :=
  match opt with
  | EmptyString => ("", "")
  | String c rest =>
      if isalnum c then ("", opt)
      else
        match rest with
        | String c' rest' =>
            if Ascii.eqb c' c then (String c (String c' ""), rest')
            else (String c "", rest)
        | EmptyString => (String c "", "")
        end
  end.

(** [arg.split("=", 1)] when ["=" in arg]. *)
Fixpoint split_eq (arg : string) : string * option string :=
  match arg with
  | EmptyString => ("", None)
  | String c rest =>
      if Ascii.eqb c "="%char then ("", Some rest)
      else let '(name, value) := split_eq rest in (String c name, value)
  end.

(** [arg[:1] in self._opt_prefixes and len(arg) > 1] *)
Definition is_option_token (arg : string) : bool :=
  match arg with
  | String c (String _ _) => Ascii.eqb c "-"%char
  | _ => false
  end.

(** [arg[:2] in self._opt_prefixes], for a token that is an option. *)
Definition has_long_prefix (arg : string) : bool :=
  match arg with
  | String c (String c' _) => Ascii.eqb c "-"%char && Ascii.eqb c' "-"%char
  | _ => false
  end.

Definition string_le (s1 s2 : string) : Prop := String.leb s1 s2 = true.

#[global] Instance string_le_dec s1 s2 : Decision (string_le s1 s2).
Proof. unfold string_le. apply _. Defined.

(** *** Parameters, commands and groups *)

Record Param := {
  param_name : string;
  param_opts : list string;
  takes_value : bool;
  envvar : option string
}.

(** The name of an environment variable: the one an option declares,
    or [f"{prefix}_{name.upper()}"] for a parameter [name] under
    [auto_envvar_prefix]. *)
Inductive envvar_name :=
| Declared (variable : string)
| Automatic (prefix name : string).

(** What [main] looks at in the process before it parses anything: the
    environment, the name of the variable that asks for shell
    completion ([_<PROG_NAME>_COMPLETE], from the detected program
    name), and what [shell_complete] does with the instruction found
    there: the texts it prints and the status it returns, or the
    exception it ends with. *)
Record completion := {
  environ : gmap string string;
  complete_var : string;
  shell_complete : string -> list emitted * result Z
}.

(** [os.environ.get(complete_var)] is set and not empty. *)
Definition completion_requested (c : completion) : bool :=
  match environ c !! complete_var c with
  | Some instruction => negb (String.eqb instruction "")
  | None => false
  end.

(** An environment in which the variable is not set. *)
Definition no_completion : completion :=
  {| environ := ∅;
     complete_var := "_CLI_COMPLETE";
     shell_complete := fun _ => ([], Ret 1%Z) |}.

(** The option [get_help_option] builds from the default
    [help_option_names]. *)
Definition help_option : Param :=
  {| param_name := "help"; param_opts := ["--help"];
     takes_value := false; envvar := None |}.

Section Framework.
Context {W : Type}.

(** A subcommand as its group sees it: [run args] stands for
    [make_context(name, args)] followed by [invoke]. *)
Record Command := {
  cmd_name : string;
  hidden : bool;
  run : list string -> W -> result pyval * W
}.

(** A decorated function: what [click.group()] reads from it. *)
Record pyfunction := {
  fn_name : string;
  fn_doc : string;
  fn_click_params : list Param;
  fn_body : W -> result pyval * W
}.

Record Group := {
  name : string;
  help : string;
  params : list Param;
  callback : W -> result pyval * W;
  commands : gmap string Command;
  invoke_without_command : bool;
  no_args_is_help : bool;
  context_settings : gmap string string
}.

Record Context := {
  ctx_params : list (string * option (option string));
  protected_args : list string;
  args : list string;
  invoked_subcommand : option string
}.

(** [click.group()] applied to a function, all keyword arguments at
    their defaults. *)
Definition group (f : pyfunction) : Group :=
  {| name := command_name (fn_name f);
     help := fn_doc f;
     params := fn_click_params f;
     callback := fn_body f;
     commands := ∅;
     invoke_without_command := false;
     no_args_is_help := true;
     context_settings := ∅ |}.

(** [Group.add_command(cmd)] with [name=None]: [self.commands[cmd.name] = cmd]. *)
Definition add_command (cmd : Command) (g : Group) : Group :=
  {| name := name g;
     help := help g;
     params := params g;
     callback := callback g;
     commands := <[cmd_name cmd := cmd]> (commands g);
     invoke_without_command := invoke_without_command g;
     no_args_is_help := no_args_is_help g;
     context_settings := context_settings g |}.

Definition get_command (g : Group) (cmd_name : string) : option Command :=
  commands g !! cmd_name.

(** [sorted(self.commands)] *)
Definition list_commands (g : Group) : list string :=
  merge_sort string_le (elements (dom (commands g))).

(** [self.params] followed by the help option. *)
Definition get_params (g : Group) : list Param :=
  params g ++ [help_option].

(** The subcommand section of the help page skips what is missing or
    hidden. *)
Definition format_commands (g : Group) : list string :=
  List.filter
    (fun n =>
       match get_command g n with
       | Some cmd => negb (hidden cmd)
       | None => false
       end)
    (list_commands g).

(** *** The option parser of a group ([allow_interspersed_args = False]) *)

(** What matching one option token yields: an error, the options it
    set, or an option that takes the next argument as its value. *)
Inductive opt_step :=
| OptError (u : usage_error)
| OptFound (found : list (string * option string))
| OptNeedsValue (found : list (string * option string)) (dest opt : string).

(** [add_option] files a name as short when prefix and name are one
    character each, as long otherwise. *)
Definition is_short_opt (o : string) : bool :=
  let '(prefix, value) := split_opt o in
  Nat.eqb (String.length prefix) 1 && Nat.eqb (String.length value) 1.

(** [_short_opt] and [_long_opt]; a later declaration of a name
    replaces an earlier one. *)
Definition opt_table (short : bool) (ps : list Param) : gmap string Param :=
  foldl
    (fun table p =>
       foldl
         (fun table o =>
            if Bool.eqb (is_short_opt o) short then <[o := p]> table
            else table)
         table (param_opts p))
    ∅ ps.

Fixpoint match_short_opt (ps : list Param) (chars : string)
    (found : list (string * option string)) : opt_step :=
  match chars with
  | EmptyString => OptFound found
  | String ch rest =>
      let opt := String "-"%char (String ch "") in
      match opt_table true ps !! opt with
      | None => OptError (NoSuchOption opt)
      | Some p =>
          if takes_value p then
            match rest with
            | EmptyString => OptNeedsValue found (param_name p) opt
            | _ => OptFound (found ++ [(param_name p, Some rest)])
            end
          else match_short_opt ps rest (found ++ [(param_name p, None)])
      end
  end.

Definition match_long_opt (ps : list Param) (opt : string)
    (explicit_value : option string) : opt_step :=
  match opt_table false ps !! opt with
  | None => OptError (NoSuchOption opt)
  | Some p =>
      match takes_value p, explicit_value with
      | true, Some v => OptFound [(param_name p, Some v)]
      | true, None => OptNeedsValue [] (param_name p) opt
      | false, Some _ => OptError (OptionTakesNoValue opt)
      | false, None => OptFound [(param_name p, None)]
      end
  end.

(** [_process_opts]: the long table first; a token with a one-character
    prefix that is no long option is read as a cluster of short ones. *)
Definition process_opts (ps : list Param) (arg : string) : opt_step :=
  let '(long_opt, explicit_value) := split_eq arg in
  match match_long_opt ps long_opt explicit_value with
  | OptError (NoSuchOption o) =>
      if has_long_prefix arg then OptError (NoSuchOption o)
      else
        match arg with
        | String _ chars => match_short_opt ps chars []
        | EmptyString => OptError (NoSuchOption o)
        end
  | step => step
  end.

(** [_process_args_for_options]: options are read up to [--] or up to
    the first token that is not one; everything after is left alone. *)
Fixpoint process_args (ps : list Param)
    (found : list (string * option string)) (rargs : list string)
    : usage_error + list (string * option string) * list string :=
  match rargs with
  | [] => inr (found, [])
  | arg :: rargs' =>
      if String.eqb arg "--" then inr (found, rargs')
      else if is_option_token arg then
        match process_opts ps arg with
        | OptError u => inl u
        | OptFound more => process_args ps (found ++ more) rargs'
        | OptNeedsValue more dest opt =>
            match rargs' with
            | [] => inl (OptionRequiresArgument opt)
            | value :: rargs'' =>
                process_args ps (found ++ more ++ [(dest, Some value)]) rargs''
            end
        end
      else inr (found, arg :: rargs')
  end.

(** *** Contexts, dispatch and [main] *)

Definition get_help (g : Group) : help_page :=
  {| hp_text := help g;
     hp_options := flat_map param_opts (get_params g);
     hp_commands := format_commands g |}.

(** The name under which a parameter is looked up in the environment:
    its [envvar], or one built from [auto_envvar_prefix]. *)
Definition resolve_envvar (g : Group) (p : Param) : option envvar_name :=
  match envvar p with
  | Some v => Some (Declared v)
  | None =>
      match context_settings g !! "auto_envvar_prefix" with
      | Some prefix => Some (Automatic prefix (param_name p))
      | None => None
      end
  end.

Definition envvars_consulted (g : Group) : list envvar_name :=
  omap (resolve_envvar g) (get_params g).

(** The value an option was given on the command line, the last one if
    it was given several times. *)
Definition parsed_value (found : list (string * option string))
    (p : Param) : option (option string) :=
  snd <$> List.find (fun x => String.eqb (fst x) (param_name p)) (reverse found).

(** [parse_args]: help when there is nothing to parse, then the option
    parser, then the parameters; the eager help option prints the help
    page and leaves through [ctx.exit()]. *)
Definition parse_args (g : Group) (argv : list string) : M W Context :=
  if no_args_is_help g && bool_decide (argv = []) then
    echo (EchoHelp (get_help g));; raise (Exit 0)
  else
    match process_args (get_params g) [] argv with
    | inl u => raise (UsageError u)
    | inr (found, rest) =>
        if bool_decide (param_name help_option ∈ found.*1) then
          echo (EchoHelp (get_help g));; raise (Exit 0)
        else
          mret {| ctx_params :=
                    map (fun p => (param_name p, parsed_value found p)) (params g);
                  protected_args := take 1 rest;
                  args := drop 1 rest;
                  invoked_subcommand := None |}
    end.

(** [resolve_command]: a name that is not registered and looks like an
    option sends [ctx.args] through [parse_args] once more before the
    failure is reported. *)
Definition resolve_command (g : Group) (ctx : Context) (argv : list string)
    : M W (string * Command * list string) :=
  match argv with
  | [] => raise (Exception "IndexError")
  | cmd_name :: rest =>
      match get_command g cmd_name with
      | Some cmd => mret (cmd_name, cmd, rest)
      | None =>
          (if bool_decide ((split_opt cmd_name).1 = "") then mret tt
           else _ ← parse_args g (args ctx); mret tt);;
          raise (UsageError (NoSuchCommand cmd_name))
      end
  end.

(** [Group.invoke]: resolve the subcommand, run the group callback,
    then hand the remaining arguments to the subcommand. *)
Definition invoke (g : Group) (ctx : Context) : M W pyval :=
  match protected_args ctx with
  | [] =>
      if invoke_without_command g then
        log (EvCallback (name g));; lift (callback g)
      else raise (UsageError MissingCommand)
  | _ =>
      let argv := protected_args ctx ++ args ctx in
      let ctx := {| ctx_params := ctx_params ctx; protected_args := [];
                    args := []; invoked_subcommand := None |} in
      '(cmd_name, cmd, rest) ← resolve_command g ctx argv;
      log (EvCallback (name g));;
      _ ← lift (callback g);
      log (EvInvoke cmd_name rest);;
      lift (run cmd rest)
  end.

Definition EPIPE : Z := 32.

(** The handlers of [main] in standalone mode. *)
Definition inner_handler (e : exn) : M W pyval :=
  match e with
  | EOFError | KeyboardInterrupt => echo EchoNewline;; raise Abort
  | UsageError u => echo (ShowUsageError u);; raise (SystemExit 2)
  | ClickException code message =>
      echo (ShowError message);; raise (SystemExit code)
  | OSError errno =>
      if (errno =? EPIPE)%Z then raise (SystemExit 1) else raise e
  | _ => raise e
  end.

Definition outer_handler (e : exn) : M W pyval :=
  match e with
  | Exit code => raise (SystemExit code)
  | Abort => echo EchoAborted;; raise (SystemExit 1)
  | _ => raise e
  end.

(** The exceptions for which [main] has a clause. *)
Definition handled_by_main (e : exn) : bool :=
  match e with
  | UsageError _ | ClickException _ _ | Exit _ | Abort
  | KeyboardInterrupt | EOFError => true
  | OSError errno => (errno =? EPIPE)%Z
  | SystemExit _ | Exception _ => false
  end.

(** The [try] statement of [main] with [standalone_mode=True]: the
    value the command returns is dropped and the process is left through
    [ctx.exit()]. *)
Definition run_group (g : Group) (argv : list string) : M W pyval :=
  try_except
    (try_except
       (ctx ← parse_args g argv;
        _ ← invoke g ctx;
        raise (Exit 0))
       inner_handler)
    outer_handler.

(** [echo] of each text in turn. *)
Definition echo_all (texts : list emitted) : M W unit :=
  foldr (fun text k => echo text;; k) (mret tt) texts.

(** [_main_shell_completion]: when the variable holds an instruction,
    [shell_complete] runs and the process is left with its status;
    nothing is parsed. *)
Definition main_shell_completion (c : completion) : M W unit :=
  match environ c !! complete_var c with
  | None => mret tt
  | Some instruction =>
      if String.eqb instruction "" then mret tt
      else
        let '(texts, rv) := shell_complete c instruction in
        echo_all texts;;
        match rv with
        | Ret status => raise (SystemExit status)
        | Raise e => raise e
        end
  end.

(** [main(args)] in the process [c]. *)
Definition main (c : completion) (g : Group) (argv : list string)
    : M W pyval :=
  log (EvMain argv);;
  main_shell_completion c;;
  run_group g argv.

(** [main(args)] once the completion check has let it through. *)
Definition main_after_completion (g : Group) (argv : list string)
    : M W pyval :=
  log (EvMain argv);;
  run_group g argv.

(** A leaf command run on its own, [cmd.main(args)]: the same handlers
    around the command. *)
Definition command_main (cmd : Command) (argv : list string) : M W pyval :=
  try_except
    (try_except (_ ← lift (run cmd argv); raise (Exit 0)) inner_handler)
    outer_handler.

(** What the handlers of [main] make of the way a command ends: the
    exception that leaves [main], and what is printed on the way. *)
Definition settle (r : result pyval) : exn * list emitted :=
  match r with
  | Ret _ => (SystemExit 0, [])
  | Raise (Exit code) => (SystemExit code, [])
  | Raise Abort => (SystemExit 1, [EchoAborted])
  | Raise EOFError | Raise KeyboardInterrupt =>
      (SystemExit 1, [EchoNewline; EchoAborted])
  | Raise (UsageError u) => (SystemExit 2, [ShowUsageError u])
  | Raise (ClickException code message) => (SystemExit code, [ShowError message])
  | Raise (OSError errno) =>
      if (errno =? EPIPE)%Z then (SystemExit 1, []) else (OSError errno, [])
  | Raise e => (e, [])
  end.

End Framework.

Arguments Command W : clear implicits.
Arguments pyfunction W : clear implicits.
Arguments Group W : clear implicits.

End click.

(** ** The module [cli/__main__.py] *)

Module Cli.
Import Python click.

Section Program.
Context {W : Type}.

(** The sibling package [commands], whose code is not part of the
    module: what executing it on import does to the world, and what its
    [build] command does with the arguments it is handed. *)
Record commands_package := {
  toplevel : W -> W;
  build_run : list string -> W -> result pyval * W
}.

Variable pkg : commands_package.

(** Modelled from the spec: the object [build] exported by [commands],
    whose declaration is not among the sources.  The spec names the
    subcommand [build] and has the help page list it, so the command
    carries that name and is not hidden; what it does is the package's. *)
Definition build : Command W :=
  {| cmd_name := "build"; hidden := false; run := build_run pkg |}.

Definition docstring : string :=
  "Commercial Marketplace Offer Deployment Manager (MODM) CLI that exposes application packaging".

(** [def cli(): pass], under its docstring *)
Definition cli_function : pyfunction W :=
  {| fn_name := "cli";
     fn_doc := docstring;
     fn_click_params := [];
     fn_body := fun w => (Ret PyNone, w) |}.

(** The object bound to [cli] once the module's declarations have run:
    [@click.group()] on the function, then [cli.add_command(build)]. *)
Definition cli : Group W := add_command build (group cli_function).

(** The module, top to bottom, executed in the process [c] under the
    name [dunder_name] with [argv] for [sys.argv[1:]]. *)
Definition module_body (c : completion) (dunder_name : string)
    (argv : list string) : M W (Group W) :=
  log (EvImport ".commands");;
  lift (fun w => (Ret tt, toplevel pkg w));;
  let cli := group cli_function in
  log (EvGroupDefined (name cli));;
  let cli := add_command build cli in
  log (EvCommandAdded (cmd_name build));;
  if String.eqb dunder_name "__main__" then
    _ ← main c cli argv; mret cli
  else mret cli.

(** [python -m cli argv...] in the process [c]. *)
Definition run_program_in (c : completion) (argv : list string) (w : W)
    : result (Group W) * state W :=
  module_body c "__main__" argv (init w).

(** [python -m cli argv...] with the completion variable not set. *)
Definition run_program (argv : list string) (w : W)
    : result (Group W) * state W :=
  run_program_in no_completion argv w.

(** [import cli.__main__] from another module. *)
Definition import_module (dunder_name : string) (argv : list string) (w : W)
    : result (Group W) * state W :=
  module_body no_completion dunder_name argv (init w).

(** *** States the program passes through *)

(** The module once its declarations have run. *)
Definition loaded (w : W) : state W :=
  State (toplevel pkg w) []
    [EvImport ".commands"; EvGroupDefined "cli"; EvCommandAdded "build"].

(** The states the group leaves behind when it prints and exits. *)
Definition printed (o : emitted) (argv : list string) (s : state W) : state W :=
  State (world s) (out s ++ [o]) (trace s ++ [EvMain argv]).

(** The state in which [build] starts. *)
Definition entered (argv rest : list string) (s : state W) : state W :=
  State (world s) (out s)
    (trace s ++ [EvMain argv; EvCallback "cli"; EvInvoke "build" rest]).

Definition help_shown (s : state W) : state W :=
  State (world s) (out s ++ [EchoHelp (get_help cli)]) (trace s).

End Program.

Arguments commands_package W : clear implicits.

End Cli.

(** ** Stand-ins for the [commands] package *)

Module Fixtures.
Import Python click Cli.

(** A [build] that records the arguments it receives and returns. *)
Definition recording_pkg : commands_package (list string) :=
  {| toplevel := fun w => w;
     build_run := fun argv w => (Ret PyNone, w ++ argv) |}.

(** A [build] that fails with an exception click does not know. *)
Definition failing_pkg : commands_package (list string) :=
  {| toplevel := fun w => w;
     build_run := fun argv w => (Raise (Exception "RuntimeError"), w ++ argv) |}.

End Fixtures.

(** ** The command lines that reach [build], read off their shape *)

Module Shapes.
Import Python click Cli.

(** The arguments [build] is handed, for the two shapes of command line
    that name it in first position: [build ...] and [-- build ...]. *)
Definition build_arguments (argv : list string) : option (list string) :=
  match argv with
  | first :: rest =>
      if String.eqb first "build" then Some rest
      else if String.eqb first "--" then
        match rest with
        | second :: rest' =>
            if String.eqb second "build" then Some rest' else None
        | [] => None
        end
      else None
  | [] => None
  end.

(** A process in which the shell asks for the bash completion script. *)
Definition bash_source : completion :=
  {| environ := {["_CLI_COMPLETE" := "bash_source"]};
     complete_var := "_CLI_COMPLETE";
     shell_complete := fun _ => ([EchoText "completion script"], Ret 0%Z) |}.

(** A [build] that is interrupted from the keyboard. *)
Definition interrupted_pkg : commands_package (list string) :=
  {| toplevel := fun w => w;
     build_run := fun argv w => (Raise KeyboardInterrupt, w ++ argv) |}.

End Shapes.

(** ** Properties *)

Module Properties.
Import Python click Cli Fixtures Shapes.

(** *** Strings and tokens *)




Lemma split_eq_no_value arg name : split_eq arg = (name, None) -> name = arg.
Proof.
  revert name. induction arg as [|c rest IH]; intros name; simpl.
  - by intros [= <-].
  - destruct (Ascii.eqb c "="); [done|].
    destruct (split_eq rest) as [n v]. intros [= <- ->]. by rewrite (IH n).
Qed.

(** *** The group object *)

Section Registry.
Context {W : Type} (pkg : commands_package W).

Lemma commands_cli : commands (cli pkg) = {["build" := build pkg]}.
Proof. reflexivity. Qed.

Lemma get_command_build : get_command (cli pkg) "build" = Some (build pkg).
Proof. unfold get_command. rewrite commands_cli. apply lookup_singleton_eq. Qed.

Lemma get_command_other n : n <> "build" -> get_command (cli pkg) n = None.
Proof.
  intros Hn. unfold get_command. rewrite commands_cli.
  by apply lookup_singleton_ne.
Qed.

Lemma get_command_cli n :
  get_command (cli pkg) n = if decide (n = "build") then Some (build pkg) else None.
Proof.
  case_decide as Hn; [subst; apply get_command_build|by apply get_command_other].
Qed.

Lemma list_commands_cli : list_commands (cli pkg) = ["build"].
Proof.
  unfold list_commands. rewrite commands_cli, dom_singleton_L, elements_singleton.
  reflexivity.
Qed.

Lemma format_commands_cli : format_commands (cli pkg) = ["build"].
Proof.
  unfold format_commands. rewrite list_commands_cli. simpl.
  by rewrite get_command_build.
Qed.

Lemma get_params_cli : get_params (cli pkg) = [help_option].
Proof. reflexivity. Qed.

Lemma get_help_cli :
  get_help (cli pkg) =
    {| hp_text := docstring;
       hp_options := ["--help"];
       hp_commands := ["build"] |}.
Proof. unfold get_help. by rewrite format_commands_cli. Qed.

End Registry.

(** *** The parser of a group that declares no option *)

Lemma long_table_help :
  opt_table false [help_option] = {["--help" := help_option]}.
Proof. reflexivity. Qed.

Lemma short_table_help : opt_table true [help_option] = ∅.
Proof. reflexivity. Qed.

Lemma process_opts_help : process_opts [help_option] "--help" = OptFound [("help", None)].
Proof. reflexivity. Qed.

(** Any other option token is refused. *)
Lemma process_opts_unknown arg :
  is_option_token arg = true -> arg <> "--help" ->
  exists u, process_opts [help_option] arg = OptError u.
Proof.
  intros Htok Hne. unfold process_opts.
  destruct (split_eq arg) as [long_opt explicit_value] eqn:Hsplit.
  unfold match_long_opt. rewrite long_table_help.
  destruct (decide (long_opt = "--help")) as [->|Hlong].
  - rewrite lookup_singleton_eq. simpl.
    destruct explicit_value as [v|]; [by eexists|].
    apply split_eq_no_value in Hsplit. congruence.
  - rewrite lookup_singleton_ne by done.
    destruct (has_long_prefix arg); [by eexists|].
    destruct arg as [|c [|ch chars]]; try done.
    simpl. rewrite short_table_help, lookup_empty. by eexists.
Qed.

(** Only [--help] is ever recorded, and a failure is a usage error. *)
Lemma process_args_help rargs found :
  (exists u, process_args [help_option] found rargs = inl u) \/
  (exists n rest,
     process_args [help_option] found rargs
       = inr (found ++ replicate n ("help", None), rest)).
Proof.
  revert found. induction rargs as [|arg rargs IH]; intros found; simpl.
  - right. exists 0, []. by rewrite app_nil_r.
  - destruct (String.eqb arg "--").
    { right. exists 0, rargs. by rewrite app_nil_r. }
    destruct (is_option_token arg) eqn:Htok.
    2:{ right. exists 0, (arg :: rargs). by rewrite app_nil_r. }
    destruct (decide (arg = "--help")) as [->|Hne].
    + rewrite process_opts_help.
      destruct (IH (found ++ [("help", None)])) as [[u Hu]|(n & rest & Hn)].
      * left. by exists u.
      * right. exists (S n), rest. rewrite Hn. by rewrite <- app_assoc.
    + destruct (process_opts_unknown arg Htok Hne) as [u ->]. left. by exists u.
Qed.

(** *** Running the group *)

#[local] Arguments process_args : simpl never.
#[local] Arguments get_help : simpl never.
#[local] Arguments get_command : simpl never.
#[local] Arguments split_opt : simpl never.

Ltac run_monad :=
  unfold try_except, inner_handler, outer_handler, mbind, M_bind, bind, mret,
    M_ret, ret, raise, log, echo, lift; simpl.

Section Dispatch.
Context {W : Type} (pkg : commands_package W).

Lemma parse_args_nil s : parse_args (cli pkg) [] s = (Raise (Exit 0), help_shown pkg s).
Proof. reflexivity. Qed.

Lemma parse_args_cli argv s :
  argv <> [] ->
  parse_args (cli pkg) argv s =
    match process_args [help_option] [] argv with
    | inl u => (Raise (UsageError u), s)
    | inr (found, rest) =>
        if bool_decide ("help" ∈ found.*1) then (Raise (Exit 0), help_shown pkg s)
        else (Ret (Build_Context [] (take 1 rest) (drop 1 rest) None), s)
    end.
Proof.
  intros Hne. destruct argv as [|arg rargs]; [done|].
  unfold parse_args. simpl. rewrite get_params_cli.
  destruct (process_args _ _ _) as [u|[found rest]]; [done|].
  by destruct (bool_decide _).
Qed.

Lemma invoke_missing ps s :
  invoke (cli pkg) (Build_Context ps [] [] None) s
    = (Raise (UsageError MissingCommand), s).
Proof. reflexivity. Qed.

Lemma invoke_build ps rest s :
  invoke (cli pkg) (Build_Context ps ["build"] rest None) s
    = lift (run (build pkg) rest)
        (State (world s) (out s)
           (trace s ++ [EvCallback "cli"; EvInvoke "build" rest])).
Proof.
  unfold invoke, resolve_command. simpl. rewrite get_command_build.
  run_monad. rewrite <- app_assoc. simpl.
  by destruct (build_run pkg rest (world s)) as [[v|e] w].
Qed.

Lemma invoke_unknown ps c rest s :
  c <> "build" -> (split_opt c).1 = "" ->
  invoke (cli pkg) (Build_Context ps [c] rest None) s
    = (Raise (UsageError (NoSuchCommand c)), s).
Proof.
  intros Hc Hp. unfold invoke, resolve_command. simpl.
  rewrite get_command_other by done. rewrite bool_decide_eq_true_2 by done.
  reflexivity.
Qed.

Lemma invoke_option_like ps c rest s :
  c <> "build" -> (split_opt c).1 <> "" ->
  invoke (cli pkg) (Build_Context ps [c] rest None) s
    = (Raise (Exit 0), help_shown pkg s).
Proof.
  intros Hc Hp. unfold invoke, resolve_command. simpl.
  rewrite get_command_other by done. rewrite bool_decide_eq_false_2 by done.
  reflexivity.
Qed.

Lemma main_eq argv s :
  main_after_completion (cli pkg) argv s =
    try_except
      (try_except
         (ctx ← parse_args (cli pkg) argv; _ ← invoke (cli pkg) ctx; raise (Exit 0))
         inner_handler)
      outer_handler
      (State (world s) (out s) (trace s ++ [EvMain argv])).
Proof. reflexivity. Qed.

Lemma main_no_args s :
  main_after_completion (cli pkg) [] s
    = (Raise (SystemExit 0), printed (EchoHelp (get_help (cli pkg))) [] s).
Proof. reflexivity. Qed.

Lemma main_usage_error argv u s :
  argv <> [] ->
  process_args [help_option] [] argv = inl u ->
  main_after_completion (cli pkg) argv s
    = (Raise (SystemExit 2), printed (ShowUsageError u) argv s).
Proof.
  intros Hne Hp. rewrite main_eq. run_monad.
  rewrite parse_args_cli, Hp by done. reflexivity.
Qed.

Lemma main_help argv n rest s :
  argv <> [] ->
  process_args [help_option] [] argv = inr (replicate (S n) ("help", None), rest) ->
  main_after_completion (cli pkg) argv s
    = (Raise (SystemExit 0), printed (EchoHelp (get_help (cli pkg))) argv s).
Proof.
  intros Hne Hp. rewrite main_eq. run_monad.
  rewrite parse_args_cli, Hp by done.
  rewrite bool_decide_eq_true_2 by (simpl; left). reflexivity.
Qed.

Lemma main_parsed argv rest s :
  argv <> [] ->
  process_args [help_option] [] argv = inr ([], rest) ->
  main_after_completion (cli pkg) argv s =
    try_except
      (try_except
         (_ ← invoke (cli pkg) (Build_Context [] (take 1 rest) (drop 1 rest) None);
          raise (Exit 0))
         inner_handler)
      outer_handler
      (State (world s) (out s) (trace s ++ [EvMain argv])).
Proof.
  intros Hne Hp. rewrite main_eq. run_monad.
  rewrite parse_args_cli, Hp by done.
  rewrite bool_decide_eq_false_2 by (simpl; apply not_elem_of_nil). reflexivity.
Qed.

Lemma main_missing argv s :
  argv <> [] ->
  process_args [help_option] [] argv = inr ([], []) ->
  main_after_completion (cli pkg) argv s
    = (Raise (SystemExit 2), printed (ShowUsageError MissingCommand) argv s).
Proof. intros Hne Hp. by rewrite (main_parsed _ _ _ Hne Hp). Qed.

Lemma main_build argv rest s :
  argv <> [] ->
  process_args [help_option] [] argv = inr ([], "build" :: rest) ->
  main_after_completion (cli pkg) argv s = command_main (build pkg) rest (entered argv rest s).
Proof.
  intros Hne Hp. rewrite (main_parsed _ _ _ Hne Hp). unfold command_main.
  run_monad. rewrite drop_0, invoke_build. unfold entered. simpl.
  rewrite <- app_assoc. reflexivity.
Qed.

Lemma main_unknown argv c rest s :
  argv <> [] ->
  process_args [help_option] [] argv = inr ([], c :: rest) ->
  c <> "build" -> (split_opt c).1 = "" ->
  main_after_completion (cli pkg) argv s
    = (Raise (SystemExit 2), printed (ShowUsageError (NoSuchCommand c)) argv s).
Proof.
  intros Hne Hp Hc Hpre. rewrite (main_parsed _ _ _ Hne Hp).
  run_monad. rewrite drop_0, invoke_unknown by done. reflexivity.
Qed.

Lemma main_option_like argv c rest s :
  argv <> [] ->
  process_args [help_option] [] argv = inr ([], c :: rest) ->
  c <> "build" -> (split_opt c).1 <> "" ->
  main_after_completion (cli pkg) argv s
    = (Raise (SystemExit 0), printed (EchoHelp (get_help (cli pkg))) argv s).
Proof.
  intros Hne Hp Hc Hpre. rewrite (main_parsed _ _ _ Hne Hp).
  run_monad. rewrite drop_0, invoke_option_like by done. reflexivity.
Qed.

Lemma command_main_settle (cmd : Command W) argv s :
  command_main cmd argv s =
    let '(r, w) := run cmd argv (world s) in
    (Raise (settle r).1, State w (out s ++ (settle r).2) (trace s)).
Proof.
  unfold command_main. run_monad.
  destruct (run cmd argv (world s)) as [[v|e] w]; simpl.
  - by rewrite app_nil_r.
  - destruct e; simpl; rewrite ?app_nil_r, <- ?app_assoc; try reflexivity.
    destruct (errno =? EPIPE)%Z; simpl; by rewrite app_nil_r.
Qed.

Lemma settle_unhandled e :
  handled_by_main e = false -> settle (Raise e) = (e, []).
Proof. destruct e; simpl; try done. by intros ->. Qed.

(** The module adds nothing to what [main] does. *)
Lemma run_program_main argv w :
  run_program pkg argv w =
    let '(r, s) := main_after_completion (cli pkg) argv (loaded pkg w) in
    (match r with Ret _ => Ret (cli pkg) | Raise e => Raise e end, s).
Proof.
  unfold run_program, run_program_in, module_body, main, main_after_completion,
    main_shell_completion.
  run_monad. rewrite lookup_empty. simpl.
  change (add_command (build pkg) (group cli_function)) with (cli pkg).
  change (String (command_name_char "c") _) with "cli".
  by destruct (run_group _ _ _) as [[v|e] s].
Qed.

Lemma import_module_eq dunder_name argv w :
  dunder_name <> "__main__" ->
  import_module pkg dunder_name argv w = (Ret (cli pkg), loaded pkg w).
Proof.
  intros Hn. unfold import_module, module_body.
  apply String.eqb_neq in Hn. rewrite Hn. reflexivity.
Qed.

End Dispatch.

(** Every command line either makes the group print and exit, with a
    status and a text that depend on the command line alone, or enters
    [build] with arguments that depend on the command line alone. *)
Lemma main_cases argv :
  (exists code o, forall W (pkg : commands_package W) (s : state W),
      main_after_completion (cli pkg) argv s = (Raise (SystemExit code), printed o argv s))
  \/
  (exists rest, forall W (pkg : commands_package W) (s : state W),
      main_after_completion (cli pkg) argv s = command_main (build pkg) rest (entered argv rest s)).
Proof.
  destruct argv as [|arg rargs].
  { left. exists 0%Z, (EchoHelp (HelpPage docstring ["--help"] ["build"])).
    intros. by rewrite main_no_args, get_help_cli. }
  assert (arg :: rargs <> []) as Hne by done.
  destruct (process_args_help (arg :: rargs) []) as [[u Hu]|(n & rest & Hp)].
  { left. exists 2%Z, (ShowUsageError u). intros. by apply main_usage_error. }
  simpl in Hp. destruct n as [|n].
  2:{ left. exists 0%Z, (EchoHelp (HelpPage docstring ["--help"] ["build"])).
      intros. rewrite <- (get_help_cli pkg). by eapply main_help. }
  destruct rest as [|c rest].
  { left. exists 2%Z, (ShowUsageError MissingCommand). intros. by apply main_missing. }
  destruct (decide (c = "build")) as [->|Hc].
  { right. exists rest. intros. by apply main_build. }
  left. destruct (decide ((split_opt c).1 = "")) as [Hpre|Hpre].
  - exists 2%Z, (ShowUsageError (NoSuchCommand c)). intros. by eapply main_unknown.
  - exists 0%Z, (EchoHelp (HelpPage docstring ["--help"] ["build"])).
    intros. rewrite <- (get_help_cli pkg). by eapply main_option_like.
Qed.

(** *** Concrete runs *)

Example run_build_with_arguments :
  run_program recording_pkg ["build"; "--out"; "dist"] []
    = (Raise (SystemExit 0),
       State ["--out"; "dist"] []
         [EvImport ".commands"; EvGroupDefined "cli"; EvCommandAdded "build";
          EvMain ["build"; "--out"; "dist"]; EvCallback "cli";
          EvInvoke "build" ["--out"; "dist"]]).
Proof. reflexivity. Qed.

Example run_help_after_build_goes_to_build :
  invocations (trace (run_program recording_pkg ["build"; "--help"] []).2)
    = [("build", ["--help"])].
Proof. reflexivity. Qed.

Example run_after_double_dash :
  invocations (trace (run_program recording_pkg ["--"; "build"; "x"] []).2)
    = [("build", ["x"])].
Proof. reflexivity. Qed.

Example run_short_help_is_unknown :
  run_program recording_pkg ["-h"] []
    = (Raise (SystemExit 2),
       State [] [ShowUsageError (NoSuchOption "-h")]
         [EvImport ".commands"; EvGroupDefined "cli"; EvCommandAdded "build";
          EvMain ["-h"]]).
Proof. reflexivity. Qed.

Example run_help_with_value :
  out (run_program recording_pkg ["--help=yes"] []).2
    = [ShowUsageError (OptionTakesNoValue "--help")].
Proof. reflexivity. Qed.

Example run_unknown_option_before_build :
  run_program recording_pkg ["--verbose"; "build"] []
    = (Raise (SystemExit 2),
       State [] [ShowUsageError (NoSuchOption "--verbose")]
         [EvImport ".commands"; EvGroupDefined "cli"; EvCommandAdded "build";
          EvMain ["--verbose"; "build"]]).
Proof. reflexivity. Qed.

Example run_only_double_dash :
  out (run_program recording_pkg ["--"] []).2 = [ShowUsageError MissingCommand].
Proof. reflexivity. Qed.

(** A name that starts with a letter outside ASCII (here U+00E9) has no
    option prefix and is reported as unknown. *)
Example run_accented_name_is_unknown :
  let name := String (Ascii.ascii_of_nat 233) "t" in
  run_program recording_pkg [name] []
    = (Raise (SystemExit 2),
       State [] [ShowUsageError (NoSuchCommand name)]
         [EvImport ".commands"; EvGroupDefined "cli"; EvCommandAdded "build";
          EvMain [name]]).
Proof. reflexivity. Qed.

Example run_failing_build :
  run_program failing_pkg ["build"] []
    = (Raise (Exception "RuntimeError"),
       State [] []
         [EvImport ".commands"; EvGroupDefined "cli"; EvCommandAdded "build";
          EvMain ["build"]; EvCallback "cli"; EvInvoke "build" []]).
Proof. reflexivity. Qed.


(** *** The claims *)

(** The program on [build :: rest], in one equation. *)
Lemma run_build_settled {W} (pkg : commands_package W) rest w :
  run_program pkg ("build" :: rest) w
    = (let '(r, w') := build_run pkg rest (toplevel pkg w) in
       (Raise (settle r).1,
        State w' (settle r).2
          [EvImport ".commands"; EvGroupDefined "cli"; EvCommandAdded "build";
           EvMain ("build" :: rest); EvCallback "cli"; EvInvoke "build" rest])).
Proof.
  rewrite run_program_main, (main_build pkg _ rest) by done.
  rewrite command_main_settle. simpl.
  by destruct (build_run pkg rest (toplevel pkg w)) as [r w'].
Qed.

(** Claim C1.  Run with no arguments or with [--help], the program
    prints the help page and exits with status 0; the command section of
    that page lists [build] and nothing else, and [build] is the only
    name registered on the group. *)
Theorem help_lists_only_build {W} (pkg : commands_package W) argv w :
  argv = [] \/ argv = ["--help"] ->
  run_program pkg argv w
    = (Raise (SystemExit 0),
       State (toplevel pkg w) [EchoHelp (get_help (cli pkg))]
         [EvImport ".commands"; EvGroupDefined "cli"; EvCommandAdded "build";
          EvMain argv])
  /\ exit_status (run_program pkg argv w).1 = 0%Z
  /\ hp_commands (get_help (cli pkg)) = ["build"]
  /\ dom (commands (cli pkg)) = {["build"]}.
Proof.
  intros Hargv.
  assert (run_program pkg argv w
    = (Raise (SystemExit 0),
       State (toplevel pkg w) [EchoHelp (get_help (cli pkg))]
         [EvImport ".commands"; EvGroupDefined "cli"; EvCommandAdded "build";
          EvMain argv])) as Hrun.
  { rewrite run_program_main. destruct Hargv as [->| ->].
    - by rewrite main_no_args.
    - by rewrite (main_help pkg ["--help"] 0 []). }
  split; [done|]. split; [by rewrite Hrun|]. split.
  - by rewrite get_help_cli.
  - by rewrite commands_cli, dom_singleton_L.
Qed.

Lemma help_lists_only_build_witness :
  (["--help"] = [] \/ ["--help"] = ["--help"]) /\
  exit_status (run_program recording_pkg ["--help"] []).1 = 0%Z /\
  hp_commands (get_help (cli recording_pkg)) = ["build"].
Proof.
  split; [by right|].
  pose proof (help_lists_only_build recording_pkg ["--help"] [] (or_intror eq_refl))
    as (_ & Hstatus & Hlist & _).
  by split.
Defined.

(** Claim C2.  When the first argument is [build], the group looks the
    name up, finds the command imported from [commands], and enters it
    once with the remaining arguments; no other subcommand is entered,
    and the program ends the way [main] settles what [build] did. *)
Theorem build_is_dispatched {W} (pkg : commands_package W) rest w :
  get_command (cli pkg) "build" = Some (build pkg)
  /\ run (build pkg) = build_run pkg
  /\ invocations (trace (run_program pkg ("build" :: rest) w).2)
       = [("build", rest)]
  /\ run_program pkg ("build" :: rest) w
       = (let '(r, w') := build_run pkg rest (toplevel pkg w) in
          (Raise (settle r).1,
           State w' (settle r).2
             [EvImport ".commands"; EvGroupDefined "cli"; EvCommandAdded "build";
              EvMain ("build" :: rest); EvCallback "cli"; EvInvoke "build" rest])).
Proof.
  split; [apply get_command_build|]. split; [done|].
  split; [|apply run_build_settled].
  rewrite run_build_settled.
  by destruct (build_run pkg rest (toplevel pkg w)) as [r w'].
Qed.





(** The value [build] returns does not reach the exit status: a
    command that returns ends the process with status 0. *)
Lemma returned_value_is_dropped {W} (pkg : commands_package W) rest w v w' :
  build_run pkg rest (toplevel pkg w) = (Ret v, w') ->
  exit_status (run_program pkg ("build" :: rest) w).1 = 0%Z.
Proof.
  intros Hb. by rewrite run_build_settled, Hb.
Qed.

(** Claim C5.  The group declares no parameter and no context setting,
    so it looks nothing up in the environment; the only option name its
    parser knows is the built-in [--help], and on every command line the
    group-level parse either fails with a usage error or records
    nothing but [--help]. *)
Theorem group_declares_no_option {W} (pkg : commands_package W) argv :
  params (cli pkg) = []
  /\ context_settings (cli pkg) = ∅
  /\ envvars_consulted (cli pkg) = []
  /\ flat_map param_opts (get_params (cli pkg)) = ["--help"]
  /\ ((exists u, process_args (get_params (cli pkg)) [] argv = inl u)
      \/ (exists n rest,
            process_args (get_params (cli pkg)) [] argv
              = inr (replicate n ("help", None), rest))).
Proof.
  repeat split; try reflexivity.
  rewrite get_params_cli. apply (process_args_help argv []).
Qed.



(** Claim C7, as amended.  The module has no handler: the exception
    that leaves [main] leaves the program.  What [build] raises reaches
    the clauses of [main]: an exception for which [main] has none leaves
    the program as it is, with nothing printed; one for which it has a
    clause ends the process through [sys.exit].  In both cases the world
    is the one [build] left. *)
Theorem build_errors_meet_main_only {W} (pkg : commands_package W)
    rest w e w' :
  build_run pkg rest (toplevel pkg w) = (Raise e, w') ->
  raised (run_program pkg ("build" :: rest) w).1
    = raised (main_after_completion (cli pkg) ("build" :: rest) (loaded pkg w)).1
  /\ (handled_by_main e = false ->
      run_program pkg ("build" :: rest) w
        = (Raise e,
           State w' []
             [EvImport ".commands"; EvGroupDefined "cli"; EvCommandAdded "build";
              EvMain ("build" :: rest); EvCallback "cli"; EvInvoke "build" rest]))
  /\ (handled_by_main e = true ->
      exists status texts,
        run_program pkg ("build" :: rest) w
          = (Raise (SystemExit status),
             State w' texts
               [EvImport ".commands"; EvGroupDefined "cli";
                EvCommandAdded "build"; EvMain ("build" :: rest);
                EvCallback "cli"; EvInvoke "build" rest])).
Proof.
  intros Hb. split; [|split].
  - rewrite run_program_main.
    by destruct (main_after_completion _ _ _) as [[v|e0] s].
  - intros He. rewrite run_build_settled, Hb. by rewrite settle_unhandled.
  - intros He. rewrite run_build_settled, Hb.
    destruct e; simpl in *; try done; try (by eexists _, _).
    rewrite He. by eexists _, _.
Qed.

Lemma build_errors_meet_main_only_witness :
  build_run failing_pkg ["x"] (toplevel failing_pkg [])
    = (Raise (Exception "RuntimeError"), ["x"])
  /\ handled_by_main (Exception "RuntimeError") = false
  /\ run_program failing_pkg ["build"; "x"] []
      = (Raise (Exception "RuntimeError"),
         State ["x"] []
           [EvImport ".commands"; EvGroupDefined "cli"; EvCommandAdded "build";
            EvMain ["build"; "x"]; EvCallback "cli"; EvInvoke "build" ["x"]]).
Proof.
  split; [reflexivity|]. split; [reflexivity|].
  apply (build_errors_meet_main_only failing_pkg ["x"] []
           (Exception "RuntimeError") ["x"]); reflexivity.
Defined.

(** Claim C7 as the spec words it fails on an interrupt: [build] raises
    [KeyboardInterrupt], which is no usage error, and what leaves the
    program is [SystemExit 1], after a newline and the word Aborted. *)
Lemma interrupt_does_not_propagate :
  build_run interrupted_pkg ["x"] (toplevel interrupted_pkg [])
    = (Raise KeyboardInterrupt, ["x"])
  /\ run_program interrupted_pkg ["build"; "x"] []
      = (Raise (SystemExit 1),
         State ["x"] [EchoNewline; EchoAborted]
           [EvImport ".commands"; EvGroupDefined "cli"; EvCommandAdded "build";
            EvMain ["build"; "x"]; EvCallback "cli"; EvInvoke "build" ["x"]])
  /\ raised (run_program interrupted_pkg ["build"; "x"] []).1
      <> Some KeyboardInterrupt.
Proof.
  split; [reflexivity|]. split; [reflexivity|]. discriminate.
Qed.

(** Claim C8.  The body of the group callback returns [None] and leaves
    the world as it is.  On every command line the program either enters
    nothing, leaves the world as the import left it and prints one text
    (the help page or a usage error), or enters [build] once and leaves
    the world as [build] left it, printing only what [main] reports
    about the way [build] ended. *)
Theorem entry_point_has_no_effect_of_its_own {W} (pkg : commands_package W)
    argv w :
  (forall w0, callback (cli pkg) w0 = (Ret PyNone, w0))
  /\ let s := (run_program pkg argv w).2 in
     (invocations (trace s) = []
      /\ world s = toplevel pkg w
      /\ exists o, out s = [o])
     \/
     (exists rest,
        invocations (trace s) = [("build", rest)]
        /\ world s = (build_run pkg rest (toplevel pkg w)).2
        /\ out s = (settle (build_run pkg rest (toplevel pkg w)).1).2).
Proof.
  split; [done|]. simpl. rewrite run_program_main.
  destruct (main_cases argv) as [(code & o & H)|(rest & H)]; rewrite H.
  - left. simpl. eauto.
  - right. exists rest. rewrite command_main_settle. simpl.
    by destruct (build_run pkg rest (toplevel pkg w)) as [r w'].
Qed.

(** Claim C9.  Executed under a name other than [__main__], the module
    only imports [commands], defines the group and registers [build]:
    the group is not called, no subcommand is entered, nothing is
    printed, and the module ends normally with [cli] bound to the group
    that knows [build] alone. *)
Theorem import_runs_nothing {W} (pkg : commands_package W) dunder_name argv w :
  dunder_name <> "__main__" ->
  import_module pkg dunder_name argv w
    = (Ret (cli pkg),
       State (toplevel pkg w) []
         [EvImport ".commands"; EvGroupDefined "cli"; EvCommandAdded "build"])
  /\ main_calls (trace (import_module pkg dunder_name argv w).2) = 0
  /\ invocations (trace (import_module pkg dunder_name argv w).2) = []
  /\ dom (commands (cli pkg)) = {["build"]}.
Proof.
  intros Hn. rewrite import_module_eq by done.
  split; [done|]. split; [done|]. split; [done|].
  by rewrite commands_cli, dom_singleton_L.
Qed.

Lemma import_runs_nothing_witness :
  "cli.__main__" <> "__main__"
  /\ invocations
       (trace (import_module recording_pkg "cli.__main__" ["build"] []).2) = []
  /\ out (import_module recording_pkg "cli.__main__" ["build"] []).2 = [].
Proof.
  split; [discriminate|].
  pose proof (import_runs_nothing recording_pkg "cli.__main__" ["build"] [])
    as Himport.
  destruct Himport as (Heq & _ & Hinv & _); [discriminate|].
  split; [exact Hinv|]. by rewrite Heq.
Defined.

(** Two runs without completion request on the same command line,
    whatever the worlds and whatever [build] does, go through the same
    steps and enter the same subcommand with the same arguments. *)
Lemma plain_runs_agree {W1 W2}
    (pkg1 : commands_package W1) (pkg2 : commands_package W2) argv w1 w2 :
  let run1 := run_program pkg1 argv w1 in
  let run2 := run_program pkg2 argv w2 in
  trace run1.2 = trace run2.2
  /\ invocations (trace run1.2) = invocations (trace run2.2)
  /\ (invocations (trace run1.2) = [] ->
      raised run1.1 = raised run2.1
      /\ out run1.2 = out run2.2
      /\ exit_status run1.1 = exit_status run2.1)
  /\ (forall rest,
        invocations (trace run1.2) = [("build", rest)] ->
        (build_run pkg1 rest (toplevel pkg1 w1)).1
          = (build_run pkg2 rest (toplevel pkg2 w2)).1 ->
        exit_status run1.1 = exit_status run2.1
        /\ out run1.2 = out run2.2).
Proof.
  simpl. rewrite !run_program_main.
  destruct (main_cases argv) as [(code & o & H)|(rest & H)]; rewrite !H.
  - simpl. repeat split; intros; done.
  - rewrite !command_main_settle. simpl.
    destruct (build_run pkg1 rest (toplevel pkg1 w1)) as [r1 w1'] eqn:H1.
    destruct (build_run pkg2 rest (toplevel pkg2 w2)) as [r2 w2'] eqn:H2.
    simpl. split; [done|]. split; [done|]. split; [done|].
    intros rest' [= <-]. rewrite H1, H2. simpl. by intros ->.
Qed.

(** Without a completion request the process does not matter. *)
Lemma run_program_in_plain {W} (c : completion) (pkg : commands_package W)
    argv w :
  completion_requested c = false ->
  run_program_in pkg c argv w = run_program pkg argv w.
Proof.
  unfold completion_requested. intros Hc.
  unfold run_program, run_program_in, module_body, main, main_shell_completion.
  run_monad. rewrite lookup_empty.
  destruct (environ c !! complete_var c) as [instruction|]; [|done].
  by destruct (String.eqb instruction "").
Qed.

Lemma echo_all_eq {W} texts (s : state W) :
  echo_all texts s = (Ret tt, State (world s) (out s ++ texts) (trace s)).
Proof.
  revert s. induction texts as [|text texts IH]; intros s.
  - unfold echo_all. simpl. rewrite app_nil_r. by destruct s.
  - change (echo_all (text :: texts) s)
      with ((echo text;; echo_all (W:=W) texts) s).
    run_monad. rewrite IH. simpl. by rewrite <- app_assoc.
Qed.

(** With a completion request the process is left before anything is
    parsed, with what [shell_complete] printed and returned. *)
Lemma run_program_in_completion {W} (c : completion)
    (pkg : commands_package W) argv w :
  completion_requested c = true ->
  exists instruction,
    environ c !! complete_var c = Some instruction
    /\ run_program_in pkg c argv w
        = (match (shell_complete c instruction).2 with
           | Ret status => Raise (SystemExit status)
           | Raise e => Raise e
           end,
           State (toplevel pkg w) (shell_complete c instruction).1
             [EvImport ".commands"; EvGroupDefined "cli";
              EvCommandAdded "build"; EvMain argv]).
Proof.
  unfold completion_requested. intros Hc.
  destruct (environ c !! complete_var c) as [instruction|] eqn:Hi; [|done].
  exists instruction. split; [done|].
  unfold run_program_in, module_body, main, main_shell_completion.
  rewrite Hi. destruct (String.eqb instruction ""); [done|].
  destruct (shell_complete c instruction) as [texts rv].
  run_monad. rewrite echo_all_eq. simpl. by destruct rv.
Qed.

(** Claim C10, as amended.  What the program selects depends on the
    command line and on the completion request, and on nothing else.
    Two runs without request on the same command line, whatever the
    worlds and whatever [build] does, go through the same steps and
    enter the same subcommand with the same arguments; when nothing is
    entered they print the same text and end with the same exception
    and status, and when [build] is entered and ends the same way in
    both they end with the same status.  A run with a request enters
    nothing, whatever the command line, and leaves the world as the
    import left it. *)
Theorem dispatch_depends_on_argv_and_completion {W1 W2}
    (c1 c2 : completion)
    (pkg1 : commands_package W1) (pkg2 : commands_package W2) argv w1 w2 :
  let run1 := run_program_in pkg1 c1 argv w1 in
  let run2 := run_program_in pkg2 c2 argv w2 in
  (completion_requested c1 = false ->
   completion_requested c2 = false ->
   trace run1.2 = trace run2.2
   /\ invocations (trace run1.2) = invocations (trace run2.2)
   /\ (invocations (trace run1.2) = [] ->
       raised run1.1 = raised run2.1
       /\ out run1.2 = out run2.2
       /\ exit_status run1.1 = exit_status run2.1)
   /\ (forall rest,
         invocations (trace run1.2) = [("build", rest)] ->
         (build_run pkg1 rest (toplevel pkg1 w1)).1
           = (build_run pkg2 rest (toplevel pkg2 w2)).1 ->
         exit_status run1.1 = exit_status run2.1
         /\ out run1.2 = out run2.2))
  /\ (completion_requested c1 = true ->
      invocations (trace run1.2) = []
      /\ world run1.2 = toplevel pkg1 w1).
Proof.
  simpl. split.
  - intros H1 H2. rewrite !run_program_in_plain by done.
    apply (plain_runs_agree pkg1 pkg2 argv w1 w2).
  - intros H1.
    destruct (run_program_in_completion c1 pkg1 argv w1 H1) as (i & _ & ->).
    done.
Qed.

Lemma dispatch_depends_on_argv_and_completion_witness :
  completion_requested no_completion = false
  /\ completion_requested bash_source = true
  /\ trace (run_program_in recording_pkg no_completion ["build"; "x"] []).2
      = trace (run_program_in failing_pkg no_completion ["build"; "x"] ["y"]).2
  /\ invocations
       (trace (run_program_in recording_pkg bash_source ["build"; "x"] []).2)
      = [].
Proof.
  split; [reflexivity|]. split; [reflexivity|]. split.
  - apply (dispatch_depends_on_argv_and_completion no_completion no_completion
             recording_pkg failing_pkg ["build"; "x"] [] ["y"]); reflexivity.
  - apply (dispatch_depends_on_argv_and_completion bash_source no_completion
             recording_pkg failing_pkg ["build"; "x"] [] ["y"]). reflexivity.
Defined.

(** Claim C10 as the spec words it fails on the completion variable: the
    same program on the same command line in the same world enters
    [build] when the variable is not set, and enters nothing and ends
    with another status when it holds an instruction. *)
Lemma completion_variable_changes_dispatch :
  invocations
    (trace (run_program_in recording_pkg no_completion ["deploy"] []).2)
    = invocations
        (trace (run_program_in recording_pkg bash_source ["deploy"] []).2)
  /\ exit_status (run_program_in recording_pkg no_completion ["deploy"] []).1
      <> exit_status (run_program_in recording_pkg bash_source ["deploy"] []).1
  /\ invocations
       (trace (run_program_in recording_pkg no_completion ["build"; "x"] []).2)
      = [("build", ["x"])]
  /\ invocations
       (trace (run_program_in recording_pkg bash_source ["build"; "x"] []).2)
      = [].
Proof.
  split; [reflexivity|]. split; [discriminate|]. split; reflexivity.
Qed.

End Properties.

(** ** Further properties of the entry point *)

Module Coverage.
Import Python click Cli Fixtures Shapes Properties.

#[local] Arguments process_args : simpl never.
#[local] Arguments get_help : simpl never.
#[local] Arguments get_command : simpl never.
#[local] Arguments split_opt : simpl never.

Lemma process_args_cons ps found arg rargs :
  process_args ps found (arg :: rargs) =
    if String.eqb arg "--" then inr (found, rargs)
    else if is_option_token arg then
      match process_opts ps arg with
      | OptError u => inl u
      | OptFound more => process_args ps (found ++ more) rargs
      | OptNeedsValue more dest opt =>
          match rargs with
          | [] => inl (OptionRequiresArgument opt)
          | value :: rargs'' =>
              process_args ps (found ++ more ++ [(dest, Some value)]) rargs''
          end
      end
    else inr (found, arg :: rargs).
Proof. reflexivity. Qed.

(** What the parser has recorded it keeps. *)
Lemma process_args_grows found rargs found' rest :
  process_args [help_option] found rargs = inr (found', rest) ->
  exists n, found' = found ++ replicate n ("help", None).
Proof.
  intros Hp. destruct (process_args_help rargs found) as [[u Hu]|(n & r & Hn)].
  - congruence.
  - exists n. congruence.
Qed.

(** A parse that records nothing has read no option: the command line
    is returned as it is, or without a leading [--]. *)
Lemma parsed_nothing argv rest :
  process_args [help_option] [] argv = inr ([], rest) ->
  argv = "--" :: rest
  \/ (argv = rest
      /\ match rest with
         | [] => True
         | c :: _ => is_option_token c = false /\ c <> "--"
         end).
Proof.
  destruct argv as [|arg rargs].
  - intros [= <-]. by right.
  - rewrite process_args_cons.
    destruct (String.eqb arg "--") eqn:Hdd.
    { apply String.eqb_eq in Hdd as ->. intros [= ->]. by left. }
    apply String.eqb_neq in Hdd.
    destruct (is_option_token arg) eqn:Htok.
    2:{ intros [= <-]. by right. }
    destruct (decide (arg = "--help")) as [->|Hne].
    + rewrite process_opts_help. intros [n Hn]%process_args_grows.
      by destruct n.
    + by destruct (process_opts_unknown arg Htok Hne) as [u ->].
Qed.

Lemma build_arguments_parsed argv rest :
  build_arguments argv = Some rest ->
  argv <> [] /\ process_args [help_option] [] argv = inr ([], "build" :: rest).
Proof.
  destruct argv as [|first l]; [done|]. simpl.
  destruct (String.eqb first "build") eqn:Hb.
  { apply String.eqb_eq in Hb as ->. by intros [= ->]. }
  destruct (String.eqb first "--") eqn:Hdd; [|done].
  apply String.eqb_eq in Hdd as ->.
  destruct l as [|second l']; [done|].
  destruct (String.eqb second "build") eqn:Hb2; [|done].
  apply String.eqb_eq in Hb2 as ->. by intros [= ->].
Qed.

Lemma parsed_build_arguments argv rest :
  process_args [help_option] [] argv = inr ([], "build" :: rest) ->
  build_arguments argv = Some rest.
Proof.
  intros [->|[-> _]]%parsed_nothing; reflexivity.
Qed.

Lemma not_build_arguments argv :
  (forall rest,
     process_args [help_option] [] argv <> inr ([], "build" :: rest)) ->
  build_arguments argv = None.
Proof.
  intros Hno. destruct (build_arguments argv) as [r|] eqn:Hb; [|done].
  apply build_arguments_parsed in Hb as [_ Hp]. by destruct (Hno r).
Qed.

(** Every run of the program, by the three ways it can go. *)
Lemma run_program_cases {W} (pkg : commands_package W) argv w :
  (build_arguments argv = None
   /\ run_program pkg argv w
       = (Raise (SystemExit 0),
          printed (EchoHelp (get_help (cli pkg))) argv (loaded pkg w)))
  \/ (build_arguments argv = None
      /\ exists u,
          run_program pkg argv w
            = (Raise (SystemExit 2),
               printed (ShowUsageError u) argv (loaded pkg w)))
  \/ (exists rest,
        build_arguments argv = Some rest
        /\ run_program pkg argv w
            = (let '(r, w') := build_run pkg rest (toplevel pkg w) in
               (Raise (settle r).1,
                State w' (settle r).2
                  (trace (entered argv rest (loaded pkg w)))))).
Proof.
  rewrite run_program_main.
  destruct argv as [|arg rargs].
  { left. split; [done|]. by rewrite main_no_args. }
  assert (arg :: rargs <> []) as Hne by done.
  destruct (process_args_help (arg :: rargs) []) as [[u Hu]|(n & rest & Hp)].
  { right; left. split.
    - apply not_build_arguments. intros r. by rewrite Hu.
    - exists u. by rewrite (main_usage_error pkg _ u). }
  simpl in Hp. destruct n as [|n].
  2:{ left. split.
      - apply not_build_arguments. intros r. by rewrite Hp.
      - by rewrite (main_help pkg _ n rest). }
  destruct rest as [|c rest].
  { right; left. split.
    - apply not_build_arguments. intros r. by rewrite Hp.
    - exists MissingCommand. by rewrite main_missing. }
  destruct (decide (c = "build")) as [->|Hc].
  { right; right. exists rest. split; [by apply parsed_build_arguments|].
    rewrite (main_build pkg _ rest), command_main_settle by done. simpl.
    by destruct (build_run pkg rest (toplevel pkg w)) as [r w']. }
  assert (build_arguments (arg :: rargs) = None) as Hnone.
  { apply not_build_arguments. intros r. rewrite Hp. congruence. }
  destruct (decide ((split_opt c).1 = "")) as [Hpre|Hpre].
  - right; left. split; [done|]. exists (NoSuchCommand c).
    by rewrite (main_unknown pkg _ c rest).
  - left. split; [done|]. by rewrite (main_option_like pkg _ c rest).
Qed.

(** Extra X1.  [build] runs exactly on the command lines [build ...]
    and [-- build ...], with the arguments after its name: on those the
    program ends as [main] settles what [build] did; on every other
    command line nothing is entered and the world is as the import left
    it. *)
Theorem build_runs_exactly_on {W} (pkg : commands_package W) argv w :
  match build_arguments argv with
  | Some rest =>
      run_program pkg argv w
        = (let '(r, w') := build_run pkg rest (toplevel pkg w) in
           (Raise (settle r).1,
            State w' (settle r).2
              [EvImport ".commands"; EvGroupDefined "cli";
               EvCommandAdded "build"; EvMain argv; EvCallback "cli";
               EvInvoke "build" rest]))
      /\ invocations (trace (run_program pkg argv w).2) = [("build", rest)]
  | None =>
      invocations (trace (run_program pkg argv w).2) = []
      /\ world (run_program pkg argv w).2 = toplevel pkg w
  end.
Proof.
  destruct (run_program_cases pkg argv w)
    as [[Hb Hr]|[[Hb [u Hr]]|(rest & Hb & Hr)]]; rewrite Hb.
  - by rewrite Hr.
  - by rewrite Hr.
  - split; [exact Hr|]. rewrite Hr.
    by destruct (build_run pkg rest (toplevel pkg w)) as [r w'].
Qed.

(** Extra X2.  Run as [__main__], the module never ends normally: an
    exception always leaves it.  When nothing is entered that exception
    is [SystemExit 0] after the help page, or [SystemExit 2] after a
    usage error, and nothing else is printed. *)
Theorem program_never_returns {W} (pkg : commands_package W) argv w :
  exists e,
    (run_program pkg argv w).1 = Raise e
    /\ (invocations (trace (run_program pkg argv w).2) = [] ->
        (e = SystemExit 0
         /\ out (run_program pkg argv w).2 = [EchoHelp (get_help (cli pkg))])
        \/ (e = SystemExit 2
            /\ exists u, out (run_program pkg argv w).2 = [ShowUsageError u])).
Proof.
  destruct (run_program_cases pkg argv w)
    as [[Hb Hr]|[[Hb [u Hr]]|(rest & Hb & Hr)]]; rewrite Hr.
  - exists (SystemExit 0). split; [done|]. intros _. by left.
  - exists (SystemExit 2). split; [done|]. intros _. right. split; [done|].
    by exists u.
  - destruct (build_run pkg rest (toplevel pkg w)) as [r w'].
    exists (settle r).1. split; [done|]. simpl. done.
Qed.

Lemma program_never_returns_witness :
  invocations (trace (run_program recording_pkg ["--verbose"] []).2) = []
  /\ exists e,
      (run_program recording_pkg ["--verbose"] []).1 = Raise e
      /\ ((e = SystemExit 0
           /\ out (run_program recording_pkg ["--verbose"] []).2
               = [EchoHelp (get_help (cli recording_pkg))])
          \/ (e = SystemExit 2
              /\ exists u,
                  out (run_program recording_pkg ["--verbose"] []).2
                    = [ShowUsageError u])).
Proof.
  split; [reflexivity|].
  destruct (program_never_returns recording_pkg ["--verbose"] []) as (e & He & Hout).
  exists e. split; [exact He|]. apply Hout. reflexivity.
Defined.

(** Extra X3.  The group accepts no option of its own: when the first
    argument is an option other than [--help] (and is not the separator
    [--]), the program reports a usage error and leaves with status 2,
    whatever follows; [build] is not entered and the world is as the
    import left it. *)
Theorem group_option_is_refused {W} (pkg : commands_package W) first rest w :
  is_option_token first = true ->
  first <> "--help" ->
  first <> "--" ->
  exists u,
    run_program pkg (first :: rest) w
      = (Raise (SystemExit 2),
         State (toplevel pkg w) [ShowUsageError u]
           [EvImport ".commands"; EvGroupDefined "cli"; EvCommandAdded "build";
            EvMain (first :: rest)]).
Proof.
  intros Htok Hhelp Hdd.
  destruct (process_opts_unknown first Htok Hhelp) as [u Hu].
  exists u. rewrite run_program_main.
  rewrite (main_usage_error pkg (first :: rest) u); [done|done|].
  rewrite process_args_cons. apply String.eqb_neq in Hdd.
  by rewrite Hdd, Htok, Hu.
Qed.

Lemma group_option_is_refused_witness :
  is_option_token "--verbose" = true
  /\ "--verbose" <> "--help"
  /\ "--verbose" <> "--"
  /\ exists u,
      run_program recording_pkg ["--verbose"; "build"; "x"] []
        = (Raise (SystemExit 2),
           State [] [ShowUsageError u]
             [EvImport ".commands"; EvGroupDefined "cli";
              EvCommandAdded "build"; EvMain ["--verbose"; "build"; "x"]]).
Proof.
  split; [reflexivity|]. split; [discriminate|]. split; [discriminate|].
  apply (group_option_is_refused recording_pkg "--verbose" ["build"; "x"] []);
    [reflexivity|discriminate|discriminate].
Defined.

(** Extra X4.  [--help] in front of a subcommand name belongs to the
    group: the program prints the group's help page and leaves with
    status 0 without entering anything, also when the name is [build]. *)
Theorem help_before_name_shows_group_help {W} (pkg : commands_package W)
    first rest w :
  is_option_token first = false ->
  run_program pkg ("--help" :: first :: rest) w
    = (Raise (SystemExit 0),
       State (toplevel pkg w) [EchoHelp (get_help (cli pkg))]
         [EvImport ".commands"; EvGroupDefined "cli"; EvCommandAdded "build";
          EvMain ("--help" :: first :: rest)]).
Proof.
  intros Htok. rewrite run_program_main.
  destruct (String.eqb first "--") eqn:Hdd.
  - rewrite (main_help pkg _ 0 rest); [done|done|].
    rewrite process_args_cons. simpl. rewrite process_opts_help.
    rewrite process_args_cons. by rewrite Hdd.
  - rewrite (main_help pkg _ 0 (first :: rest)); [done|done|].
    rewrite process_args_cons. simpl. rewrite process_opts_help.
    rewrite process_args_cons. by rewrite Hdd, Htok.
Qed.

Lemma help_before_name_shows_group_help_witness :
  is_option_token "build" = false
  /\ run_program recording_pkg ["--help"; "build"; "x"] []
      = (Raise (SystemExit 0),
         State [] [EchoHelp (get_help (cli recording_pkg))]
           [EvImport ".commands"; EvGroupDefined "cli"; EvCommandAdded "build";
            EvMain ["--help"; "build"; "x"]]).
Proof.
  split; [reflexivity|].
  apply (help_before_name_shows_group_help recording_pkg "build" ["x"] []).
  reflexivity.
Defined.

(** Extra X5.  An exception of [build] for which [main] has a clause
    does not leave the program as itself: the process ends through
    [sys.exit], in the world [build] left.  An interrupt from the
    keyboard ends it with status 1 after a newline and the word
    Aborted. *)
Theorem handled_errors_become_exit_status {W} (pkg : commands_package W)
    rest w e w' :
  build_run pkg rest (toplevel pkg w) = (Raise e, w') ->
  handled_by_main e = true ->
  exists code,
    (run_program pkg ("build" :: rest) w).1 = Raise (SystemExit code)
    /\ world (run_program pkg ("build" :: rest) w).2 = w'
    /\ (e = KeyboardInterrupt ->
        code = 1%Z
        /\ out (run_program pkg ("build" :: rest) w).2
            = [EchoNewline; EchoAborted]).
Proof.
  intros Hb He. rewrite run_build_settled, Hb.
  destruct e; simpl in *; try done; try (by eexists; split; [done|split; [done|done]]).
  rewrite He. by eexists.
Qed.

Lemma handled_errors_become_exit_status_witness :
  build_run interrupted_pkg ["x"] (toplevel interrupted_pkg [])
    = (Raise KeyboardInterrupt, ["x"])
  /\ handled_by_main KeyboardInterrupt = true
  /\ exists code,
      (run_program interrupted_pkg ["build"; "x"] []).1 = Raise (SystemExit code)
      /\ code = 1%Z.
Proof.
  split; [reflexivity|]. split; [reflexivity|].
  destruct (handled_errors_become_exit_status interrupted_pkg ["x"] []
              KeyboardInterrupt ["x"] eq_refl eq_refl) as (code & Hr & _ & Hk).
  exists code. split; [exact Hr|]. by apply Hk.
Defined.

End Coverage.
